(** * generate_test_png.py: a 1x1 transparent PNG written to disk

    Shallow embedding of [src/generate_test_png.py] and the properties of
    the byte sequence it builds and of the run that writes it.

    Layout of the development:
    - [Bytes]: Python [bytes] as [list byte], conversions to [Z];
    - [Py]: exceptions and the error monad the calls are threaded through;
    - [Struct]: [struct.pack] for the big-endian formats the script uses;
    - [Zlib]: the CRC-32 that [zlib.crc32] computes, a routine in the
      zlib format that stores its input, and an inflater;
    - [Png]: a chunk reader, used to look at the output from outside;
    - the script itself, [create_png_data] and [main], in a section over
      the compression routine;
    - [Effect]: the two functions as trees of the calls they make. *)

From Stdlib Require Import ZArith List Lia Bool.
From Stdlib Require Import Strings.Byte Strings.String Strings.Ascii.
From Stdlib Require Import DecimalString.
From stdpp Require Import base option list strings gmap.

(** ** Bytes *)

(** A Python [bytes] object. *)
Abbreviation bytes := (list byte).

Module Bytes.

Definition to_Z (b : byte) : Z := Z.of_N (Byte.to_N b).

(** The low eight bits of [z], as a byte. *)
Definition of_Z (z : Z) : byte :=
  match Byte.of_N (Z.to_N (Z.land z 255)) with
  | Some b => b
  | None => x00
  end.

#[global] Instance byte_eq_dec : EqDecision byte.
Proof.
  intros a b. destruct (Byte.eqb a b) eqn:E.
  - left. by apply Byte.byte_dec_bl.
  - right. intros ->. by rewrite Byte.byte_dec_lb in E.
Defined.

(** A bytes literal written as text, [b'IHDR']. *)
Definition lit (s : string) : bytes := list_byte_of_string s.

(** Big-endian reading of a byte string as an unsigned number. *)
Definition be_decode (bs : bytes) : Z :=
  fold_left (fun acc b => (acc * 256 + to_Z b)%Z) bs 0%Z.

(** The four bytes of [v], most significant first. *)
Definition be32 (v : Z) : bytes :=
  [of_Z (Z.shiftr v 24); of_Z (Z.shiftr v 16); of_Z (Z.shiftr v 8); of_Z v].

End Bytes.

(** ** Exceptions and the error monad *)

Module Py.

(** What [open] and [write] can meet; the operating system picks one. *)
Inductive os_error : Type :=
| FileNotFoundError
| PermissionError
| IsADirectoryError
| NotADirectoryError
| OtherOSError (errno : Z).

Inductive exn : Type :=
| StructError
| OSError (e : os_error) (path : string).

Inductive result (A : Type) : Type :=
| Ok (a : A)
| Raise (e : exn).
Arguments Ok {A} a.
Arguments Raise {A} e.

#[global] Instance result_ret : MRet result := fun _ a => Ok a.
#[global] Instance result_bind : MBind result := fun _ _ f m =>
  match m with
  | Ok a => f a
  | Raise e => Raise e
  end.

End Py.
Import Py.

(** ** struct.pack *)

Module Struct.

(** The format characters the script uses. *)
Inductive code : Type := code_L | code_B.

Definition code_of_ascii (a : ascii) : option code :=
  if Ascii.eqb a "L" then Some code_L
  else if Ascii.eqb a "B" then Some code_B
  else None.

Fixpoint codes_of_string (s : string) : option (list code) :=
  match s with
  | EmptyString => Some []
  | String a s' =>
      c ← code_of_ascii a; cs ← codes_of_string s'; Some (c :: cs)
  end.

(** A format is [>] (big-endian, standard sizes, no padding) followed by
    format characters.  Formats outside this fragment are not modelled
    and are rejected. *)
Definition parse_format (fmt : string) : option (list code) :=
  match fmt with
  | String a s' => if Ascii.eqb a ">" then codes_of_string s' else None
  | EmptyString => None
  end.

(** One field.  An argument out of the range of its format character
    raises [struct.error]. *)
Definition pack_field (c : code) (v : Z) : result bytes :=
  match c with
  | code_L =>
      if (0 <=? v)%Z && (v <? 2 ^ 32)%Z then Ok (Bytes.be32 v)
      else Raise StructError
  | code_B =>
      if (0 <=? v)%Z && (v <? 2 ^ 8)%Z then Ok [Bytes.of_Z v]
      else Raise StructError
  end.

(** The fields in order; too few or too many arguments raise
    [struct.error]. *)
Fixpoint pack_fields (cs : list code) (args : list Z) : result bytes :=
  match cs, args with
  | [], [] => Ok []
  | c :: cs', v :: args' =>
      b ← pack_field c v; bs ← pack_fields cs' args'; mret (b ++ bs)
  | _, _ => Raise StructError
  end.

Definition pack (fmt : string) (args : list Z) : result bytes :=
  match parse_format fmt with
  | Some cs => pack_fields cs args
  | None => Raise StructError
  end.

End Struct.

(** ** zlib

    [zlib.crc32] is the standard CRC-32 and is given in full.  The
    compression routine is a parameter of the script (see the section
    below); this module gives one concrete routine in the zlib format, the
    one that stores the data in uncompressed blocks, and an inflater for
    stored blocks and blocks with the fixed Huffman codes. *)

Module Zlib.

(** *** Checksums *)

(** One bit of the reflected CRC-32 division, polynomial [0xEDB88320]. *)
Definition crc_step (c : Z) : Z :=
  if Z.testbit c 0 then Z.lxor (Z.shiftr c 1) 0xEDB88320 else Z.shiftr c 1.

Definition crc_update (c : Z) (b : byte) : Z :=
  Nat.iter 8 crc_step (Z.lxor c (Bytes.to_Z b)).

(** [zlib.crc32(data)] with the default starting value. *)
Definition crc32 (data : bytes) : Z :=
  Z.lxor (fold_left crc_update data 0xFFFFFFFF%Z) 0xFFFFFFFF.

Definition adler_step (s : Z * Z) (b : byte) : Z * Z :=
  let a := ((fst s + Bytes.to_Z b) mod 65521)%Z in
  (a, ((snd s + a) mod 65521)%Z).

(** The checksum that ends a zlib stream. *)
Definition adler32 (data : bytes) : Z :=
  let s := fold_left adler_step data (1%Z, 0%Z) in
  Z.lor (Z.shiftl (snd s) 16) (fst s).

(** *** Deflating into stored blocks *)

Definition le16 (v : Z) : bytes := [Bytes.of_Z v; Bytes.of_Z (Z.shiftr v 8)].

(** A stored block holds at most 65535 bytes. *)
Definition max_stored : nat := Z.to_nat 65535.

Definition stored_block (final : bool) (d : bytes) : bytes :=
  (if final then x01 else x00)
    :: le16 (Z.of_nat (length d))
    ++ le16 (Z.lxor (Z.of_nat (length d)) 0xFFFF)
    ++ d.

Fixpoint stored_blocks (fuel : nat) (d : bytes) : bytes :=
  match fuel with
  | O => stored_block true d
  | S fuel' =>
      if (Z.of_nat (length d) <=? 65535)%Z then stored_block true d
      else stored_block false (take max_stored d)
             ++ stored_blocks fuel' (drop max_stored d)
  end.

Definition compress_stored (d : bytes) : bytes :=
  [x78; x01] ++ stored_blocks (length d) d ++ Bytes.be32 (adler32 d).

(** *** Inflating *)

(** The unread input and the index of the next bit in its first byte. *)
Definition reader : Type := bytes * nat.

Definition read_bit (r : reader) : option (bool * reader) :=
  match r with
  | ([], _) => None
  | (b :: bs, k) =>
      Some (Z.testbit (Bytes.to_Z b) (Z.of_nat k),
            if (k =? 7)%nat then (bs, O) else (b :: bs, S k))
  end.

(** [n] bits as a number, least significant bit first. *)
Fixpoint read_bits (n : nat) (r : reader) : option (Z * reader) :=
  match n with
  | O => Some (0%Z, r)
  | S n' =>
      '(b, r1) ← read_bit r;
      '(v, r2) ← read_bits n' r1;
      Some ((Z.b2z b + 2 * v)%Z, r2)
  end.

(** [n] bits of a Huffman code, most significant bit first. *)
Fixpoint read_code (n : nat) (acc : Z) (r : reader) : option (Z * reader) :=
  match n with
  | O => Some (acc, r)
  | S n' => '(b, r1) ← read_bit r; read_code n' (2 * acc + Z.b2z b)%Z r1
  end.

(** Skip to the next byte boundary. *)
Definition align (r : reader) : bytes :=
  match r with
  | (bs, O) => bs
  | (bs, S _) => tail bs
  end.

(** A literal/length symbol of the fixed code. *)
Definition read_fixed_symbol (r : reader) : option (Z * reader) :=
  '(c7, r7) ← read_code 7 0%Z r;
  if (c7 <=? 23)%Z then Some ((256 + c7)%Z, r7)
  else
    '(c8, r8) ← read_code 1 c7 r7;
    if (c8 <=? 191)%Z then Some ((c8 - 48)%Z, r8)
    else if (c8 <=? 199)%Z then Some ((280 + (c8 - 192))%Z, r8)
    else '(c9, r9) ← read_code 1 c8 r8; Some ((144 + (c9 - 400))%Z, r9).

(** Base length and number of extra bits of the length symbols 257..285. *)
Definition length_table : list (Z * Z) :=
  [ (3, 0); (4, 0); (5, 0); (6, 0); (7, 0); (8, 0); (9, 0); (10, 0);
    (11, 1); (13, 1); (15, 1); (17, 1); (19, 2); (23, 2); (27, 2); (31, 2);
    (35, 3); (43, 3); (51, 3); (59, 3); (67, 4); (83, 4); (99, 4); (115, 4);
    (131, 5); (163, 5); (195, 5); (227, 5); (258, 0) ]%Z.

(** Base distance and number of extra bits of the distance codes 0..29. *)
Definition distance_table : list (Z * Z) :=
  [ (1, 0); (2, 0); (3, 0); (4, 0); (5, 1); (7, 1); (9, 2); (13, 2);
    (17, 3); (25, 3); (33, 4); (49, 4); (65, 5); (97, 5); (129, 6);
    (193, 6); (257, 7); (385, 7); (513, 8); (769, 8); (1025, 9);
    (1537, 9); (2049, 10); (3073, 10); (4097, 11); (6145, 11);
    (8193, 12); (12289, 12); (16385, 13); (24577, 13) ]%Z.

(** A base value plus its extra bits. *)
Definition read_extra (table : list (Z * Z)) (i : Z) (r : reader)
  : option (Z * reader) :=
  '(base, n) ← table !! Z.to_nat i;
  '(e, r') ← read_bits (Z.to_nat n) r;
  Some ((base + e)%Z, r').

(** Copy [n] bytes from [dist] back; the output is kept newest first. *)
Fixpoint copy_back (n : nat) (dist : nat) (out : bytes) : option bytes :=
  match n with
  | O => Some out
  | S n' => b ← out !! pred dist; copy_back n' dist (b :: out)
  end.

(** The symbols of one block with the fixed codes, up to end of block. *)
Fixpoint inflate_fixed (fuel : nat) (r : reader) (out : bytes)
  : option (bytes * reader) :=
  match fuel with
  | O => None
  | S fuel' =>
      '(sym, r1) ← read_fixed_symbol r;
      if (sym <? 256)%Z then inflate_fixed fuel' r1 (Bytes.of_Z sym :: out)
      else if (sym =? 256)%Z then Some (out, r1)
      else
        '(len, r2) ← read_extra length_table (sym - 257) r1;
        '(dc, r3) ← read_code 5 0%Z r2;
        '(dist, r4) ← read_extra distance_table dc r3;
        if (dist =? 0)%Z then None
        else
          out' ← copy_back (Z.to_nat len) (Z.to_nat dist) out;
          inflate_fixed fuel' r4 out'
  end.

(** A stored block: length, its complement, then the bytes. *)
Definition inflate_stored (bs : bytes) (out : bytes)
  : option (bytes * reader) :=
  match bs with
  | l0 :: l1 :: n0 :: n1 :: data =>
      let len := (Bytes.to_Z l0 + 256 * Bytes.to_Z l1)%Z in
      let nlen := (Bytes.to_Z n0 + 256 * Bytes.to_Z n1)%Z in
      if negb (nlen =? Z.lxor len 0xFFFF)%Z then None
      else if (Z.of_nat (length data) <? len)%Z then None
      else Some (rev (take (Z.to_nat len) data) ++ out,
                 (drop (Z.to_nat len) data, O))
  | _ => None
  end.

(** Blocks up to and including the final one.  Blocks with dynamic codes
    are not modelled and are rejected. *)
Fixpoint inflate_blocks (fuel : nat) (r : reader) (out : bytes)
  : option (bytes * reader) :=
  match fuel with
  | O => None
  | S fuel' =>
      '(final, r1) ← read_bits 1 r;
      '(btype, r2) ← read_bits 2 r1;
      '(out', r3) ←
        (if (btype =? 0)%Z then inflate_stored (align r2) out
         else if (btype =? 1)%Z
              then inflate_fixed (8 * length (fst r2) + 1) r2 out
              else None);
      if (final =? 1)%Z then Some (out', r3)
      else inflate_blocks fuel' r3 out'
  end.

(** A whole zlib stream: header, deflate blocks, Adler-32 of the data. *)
Definition decompress (bs : bytes) : option bytes :=
  match bs with
  | cmf :: flg :: body =>
      if negb (Z.land (Bytes.to_Z cmf) 15 =? 8)%Z then None
      else if negb ((256 * Bytes.to_Z cmf + Bytes.to_Z flg) mod 31 =? 0)%Z
           then None
      else if Z.testbit (Bytes.to_Z flg) 5 then None
      else
        '(out, r) ← inflate_blocks (length body + 1) (body, O) [];
        if (length (align r) =? 4)%nat
           && (Bytes.be_decode (align r) =? adler32 (rev out))%Z
        then Some (rev out) else None
  | _ => None
  end.

End Zlib.

(** ** Reading PNG chunks

    A reader for the container format, used to state what the output of
    the script looks like to a program that parses it. *)

Module Png.

Definition signature : bytes := [x89; x50; x4e; x47; x0d; x0a; x1a; x0a].

(** A chunk as found in a file: the two stored fields, the tag and the
    bytes in between. *)
Record chunk : Type := Chunk {
  c_length : Z;
  c_tag : bytes;
  c_payload : bytes;
  c_crc : Z
}.

(** The first chunk of [bs] and what follows it. *)
Definition read_chunk (bs : bytes) : option (chunk * bytes) :=
  if (length bs <? 8)%nat then None
  else
    let len := Bytes.be_decode (take 4 bs) in
    let body := drop 8 bs in
    if (Z.of_nat (length body) <? len + 4)%Z then None
    else
      Some (Chunk len (take 4 (drop 4 bs)) (take (Z.to_nat len) body)
              (Bytes.be_decode (take 4 (drop (Z.to_nat len) body))),
            drop (Z.to_nat len + 4) body).

Fixpoint read_chunks (fuel : nat) (bs : bytes) : option (list chunk) :=
  match bs, fuel with
  | [], _ => Some []
  | _, O => None
  | _, S fuel' =>
      '(c, rest) ← read_chunk bs;
      cs ← read_chunks fuel' rest;
      Some (c :: cs)
  end.

(** The chunks of a whole file: signature, then chunks to the end. *)
Definition read (bs : bytes) : option (list chunk) :=
  if decide (take 8 bs = signature) then read_chunks (length bs) (drop 8 bs)
  else None.

(** The payload of the first chunk with the given tag. *)
Definition payload_of (tag : string) (cs : list chunk) : option bytes :=
  c_payload <$> List.find (fun c => bool_decide (c_tag c = Bytes.lit tag)) cs.

(** The stored fields agree with the chunk's content. *)
Definition chunk_ok (c : chunk) : Prop :=
  c_length c = Z.of_nat (length (c_payload c))
  ∧ c_crc c = Zlib.crc32 (c_tag c ++ c_payload c).

(** The fields of an [IHDR] payload. *)
Record header : Type := Header {
  width : Z;
  height : Z;
  bit_depth : Z;
  color_type : Z;
  compression : Z;
  filter : Z;
  interlace : Z
}.

(** Two big-endian 32-bit numbers, then five single bytes. *)
Definition decode_header (bs : bytes) : option header :=
  match drop 8 bs with
  | [d; c; m; f; i] =>
      Some (Header (Bytes.be_decode (take 4 bs))
                   (Bytes.be_decode (take 4 (drop 4 bs)))
                   (Bytes.to_Z d) (Bytes.to_Z c) (Bytes.to_Z m)
                   (Bytes.to_Z f) (Bytes.to_Z i))
  | _ => None
  end.

(** A chunk as the format describes it: length, tag, payload, CRC-32 of
    tag and payload. *)
Definition spec_chunk (tag : string) (payload : bytes) : bytes :=
  Bytes.be32 (Z.of_nat (length payload))
    ++ Bytes.lit tag ++ payload
    ++ Bytes.be32 (Zlib.crc32 (Bytes.lit tag ++ payload)).

(** The payloads of the image: the header of a 1x1 RGBA picture with
    eight bits per channel, and its only scanline, a filter byte and one
    transparent black pixel. *)
Definition header_1x1 : bytes :=
  [x00; x00; x00; x01; x00; x00; x00; x01; x08; x06; x00; x00; x00].

Definition scanline : bytes := [x00; x00; x00; x00; x00].

(** The file as the format lays it out, given the compressed scanline. *)
Definition spec_file (idat : bytes) : bytes :=
  signature ++ spec_chunk "IHDR" header_1x1 ++ spec_chunk "IDAT" idat
    ++ spec_chunk "IEND" [].

End Png.

(** ** The world the script runs in *)

Module World.

(** What the script asks of the operating system, in order. *)
Inductive event : Type :=
| EvOpen (path : string) (mode : string)
| EvWrite (path : string) (data : bytes)
| EvClose (path : string)
| EvPrint (line : string).

(** What the interpreter leaves on the error stream. *)
Inductive diagnostic : Type :=
| Traceback (e : exn).

Record world : Type := World {
  files : gmap string bytes;
  stdout : list string;
  stderr : list diagnostic;
  log : list event
}.

Definition set_files (f : gmap string bytes → gmap string bytes) (w : world)
  : world :=
  World (f (files w)) (stdout w) (stderr w) (log w).

Definition add_event (e : event) (w : world) : world :=
  World (files w) (stdout w) (stderr w) (log w ++ [e]).

(** A computation that may change the world and may raise. *)
Definition io (A : Type) : Type := world → result A * world.

#[global] Instance io_ret : MRet io := fun _ a w => (Ok a, w).
#[global] Instance io_bind : MBind io := fun _ _ f m w =>
  match m w with
  | (Ok a, w') => f a w'
  | (Raise e, w') => (Raise e, w')
  end.

(** A call of a function that does no input or output. *)
Definition call {A : Type} (r : result A) : io A := fun w => (r, w).

(** Run [body], then [finally] whether or not [body] raised. *)
Definition ensuring {A : Type} (body : io A) (finally : io unit) : io A :=
  fun w =>
    match body w with
    | (Ok a, w') =>
        match finally w' with
        | (Ok _, w'') => (Ok a, w'')
        | (Raise e, w'') => (Raise e, w'')
        end
    | (Raise e, w') => (Raise e, snd (finally w'))
    end.

End World.
Import World.

(** ** The script *)

(** [str(n)] for a length. *)
Definition str (n : nat) : string := NilEmpty.string_of_uint (Nat.to_uint n).

Section Script.

(** [zlib.compress], at the level and version the host provides. *)
Variable compress : bytes → bytes.

(** The error [open(path, 'wb')] meets at [path], if any. *)
Variable open_fault : string → option os_error.

(** How many bytes reach the file before writing them fails, and the
    error, if writing fails. *)
Variable write_fault : string → bytes → option (nat * os_error).

(** *** Operating system calls *)

(** [open(path, 'wb')] either fails and leaves the files alone, or
    creates the file, or empties the one that is there. *)
Definition open_wb (path : string) : io string :=
  fun w =>
    let w := add_event (EvOpen path "wb") w in
    match open_fault path with
    | Some e => (Raise (OSError e path), w)
    | None => (Ok path, set_files (insert path []) w)
    end.

(** [f.write(data)]: binary mode, the bytes go to the file as they are. *)
Definition write (f : string) (data : bytes) : io nat :=
  fun w =>
    let w := add_event (EvWrite f data) w in
    let old := default [] (files w !! f) in
    match write_fault f data with
    | Some (k, e) =>
        (Raise (OSError e f), set_files (insert f (old ++ take k data)) w)
    | None => (Ok (length data), set_files (insert f (old ++ data)) w)
    end.

Definition close (f : string) : io unit :=
  fun w => (Ok tt, add_event (EvClose f) w).

(** [print(line)].  Standard output is taken to be writable: a failing
    write or flush of it is not part of this model. *)
Definition print (line : string) : io unit :=
  fun w =>
    (Ok tt,
     add_event (EvPrint line)
       (World (files w) (stdout w ++ [line]) (stderr w) (log w))).

(** *** create_png_data *)

Definition create_png_data : result bytes :=
  let png_signature := [x89; x50; x4e; x47; x0d; x0a; x1a; x0a] in
  ihdr_data ← Struct.pack ">LLBBBBB" [1; 1; 8; 6; 0; 0; 0]%Z;
  let ihdr_crc :=
    Z.land (Zlib.crc32 (Bytes.lit "IHDR" ++ ihdr_data)) 0xffffffff in
  ihdr_len ← Struct.pack ">L" [Z.of_nat (length ihdr_data)];
  ihdr_sum ← Struct.pack ">L" [ihdr_crc];
  let ihdr_chunk := ihdr_len ++ Bytes.lit "IHDR" ++ ihdr_data ++ ihdr_sum in
  let pixel_data := [x00; x00; x00; x00; x00] in
  let compressed_data := compress pixel_data in
  let idat_crc :=
    Z.land (Zlib.crc32 (Bytes.lit "IDAT" ++ compressed_data)) 0xffffffff in
  idat_len ← Struct.pack ">L" [Z.of_nat (length compressed_data)];
  idat_sum ← Struct.pack ">L" [idat_crc];
  let idat_chunk :=
    idat_len ++ Bytes.lit "IDAT" ++ compressed_data ++ idat_sum in
  let iend_crc := Z.land (Zlib.crc32 (Bytes.lit "IEND")) 0xffffffff in
  iend_len ← Struct.pack ">L" [0%Z];
  iend_sum ← Struct.pack ">L" [iend_crc];
  let iend_chunk := iend_len ++ Bytes.lit "IEND" ++ iend_sum in
  mret (png_signature ++ ihdr_chunk ++ idat_chunk ++ iend_chunk).

(** *** main *)

Definition main (argv : list string) : io unit :=
  let output_file :=
    if bool_decide (1 < length argv) then nth 1 argv ""%string
    else "example.png"%string in
  png_data ← call create_png_data;
  _ ← (f ← open_wb output_file;
       ensuring (write f png_data) (close f));
  print ("Generated " +:+ output_file +:+ " (" +:+ str (length png_data)
         +:+ " bytes)").

(** The module run as a program: an exception that nothing catches is
    reported as a traceback and the exit status is 1, otherwise 0. *)
Definition script (argv : list string) (w : world) : Z * world :=
  match main argv w with
  | (Ok _, w') => (0%Z, w')
  | (Raise e, w') =>
      (1%Z, World (files w') (stdout w') (stderr w' ++ [Traceback e]) (log w'))
  end.

End Script.

(** ** The script as a tree of calls

    The same two functions once more, this time as trees of the calls
    they make, so that what a body asks of its surroundings is there to be
    inspected: library routines, the command line, the operating system.
    Running a tree with the calls of the section above gives back the
    functions of that section. *)

Module Effect.

(** What a function body can ask for. *)
Inductive request : Type → Type :=
| StructPack (fmt : string) (args : list Z) : request bytes
| Crc32 (data : bytes) : request Z
| Compress (data : bytes) : request bytes
| Argv : request (list string)
| OpenWb (path : string) : request string
| Write (f : string) (data : bytes) : request nat
| Close (f : string) : request unit
| Print (line : string) : request unit.

Inductive prog : Type → Type :=
| Ret {A : Type} (a : A) : prog A
| Do {X A : Type} (c : request X) (k : X → prog A) : prog A
| Finally {X A : Type} (body : prog X) (finish : prog unit)
          (k : X → prog A) : prog A.

(** Run [p], then [f] on what it returns. *)
Fixpoint bind {A B : Type} (p : prog A) : (A → prog B) → prog B :=
  match p in prog A return (A → prog B) → prog B with
  | Ret a => fun f => f a
  | Do c k => fun f => Do c (fun x => bind (k x) f)
  | Finally body finish k => fun f => Finally body finish (fun x => bind (k x) f)
  end.

(** The routines of [struct] and [zlib]. *)
Definition is_library {X : Type} (c : request X) : bool :=
  match c with
  | StructPack _ _ | Crc32 _ | Compress _ => true
  | Argv | OpenWb _ | Write _ _ | Close _ | Print _ => false
  end.

(** A tree that asks for library routines only: it reads no argument of
    the program and makes no call to the operating system. *)
Fixpoint library_only {A : Type} (p : prog A) : Prop :=
  match p with
  | Ret _ => True
  | Do c k => is_library c = true ∧ ∀ x, library_only (k x)
  | Finally body finish k =>
      library_only body ∧ library_only finish ∧ ∀ x, library_only (k x)
  end.

Definition create_png_data : prog bytes :=
  let png_signature := [x89; x50; x4e; x47; x0d; x0a; x1a; x0a] in
  Do (StructPack ">LLBBBBB" [1; 1; 8; 6; 0; 0; 0]%Z) (fun ihdr_data =>
  Do (Crc32 (Bytes.lit "IHDR" ++ ihdr_data)) (fun c =>
  let ihdr_crc := Z.land c 0xffffffff in
  Do (StructPack ">L" [Z.of_nat (length ihdr_data)]) (fun ihdr_len =>
  Do (StructPack ">L" [ihdr_crc]) (fun ihdr_sum =>
  let ihdr_chunk := ihdr_len ++ Bytes.lit "IHDR" ++ ihdr_data ++ ihdr_sum in
  let pixel_data := [x00; x00; x00; x00; x00] in
  Do (Compress pixel_data) (fun compressed_data =>
  Do (Crc32 (Bytes.lit "IDAT" ++ compressed_data)) (fun c =>
  let idat_crc := Z.land c 0xffffffff in
  Do (StructPack ">L" [Z.of_nat (length compressed_data)]) (fun idat_len =>
  Do (StructPack ">L" [idat_crc]) (fun idat_sum =>
  let idat_chunk :=
    idat_len ++ Bytes.lit "IDAT" ++ compressed_data ++ idat_sum in
  Do (Crc32 (Bytes.lit "IEND")) (fun c =>
  let iend_crc := Z.land c 0xffffffff in
  Do (StructPack ">L" [0%Z]) (fun iend_len =>
  Do (StructPack ">L" [iend_crc]) (fun iend_sum =>
  let iend_chunk := iend_len ++ Bytes.lit "IEND" ++ iend_sum in
  Ret (png_signature ++ ihdr_chunk ++ idat_chunk ++ iend_chunk)))))))))))).

Definition main : prog unit :=
  Do Argv (fun argv =>
  let output_file :=
    if bool_decide (1 < length argv) then nth 1 argv ""%string
    else "example.png"%string in
  bind create_png_data (fun png_data =>
  Do (OpenWb output_file) (fun f =>
  Finally (Do (Write f png_data) Ret) (Do (Close f) Ret) (fun _ =>
  Do (Print ("Generated " +:+ output_file +:+ " ("
             +:+ str (length png_data) +:+ " bytes)")) Ret)))).

(** A tree that is not [library_only], for contrast. *)
Definition print_argument : prog string :=
  Do Argv (fun argv =>
  let s := nth 1 argv ""%string in
  Do (Print s) (fun _ => Ret s)).

Section Run.

Variable compress : bytes → bytes.
Variable open_fault : string → option os_error.
Variable write_fault : string → bytes → option (nat * os_error).
Variable argv : list string.

(** Each request answered by the call of the section above. *)
Definition answer {X : Type} (c : request X) : io X :=
  match c with
  | StructPack fmt args => call (Struct.pack fmt args)
  | Crc32 data => call (Ok (Zlib.crc32 data))
  | Compress data => call (Ok (compress data))
  | Argv => call (Ok argv)
  | OpenWb path => open_wb open_fault path
  | Write f data => write write_fault f data
  | Close f => close f
  | Print line => print line
  end.

Fixpoint run {A : Type} (p : prog A) : io A :=
  match p with
  | Ret a => mret a
  | Do c k => x ← answer c; run (k x)
  | Finally body finish k =>
      x ← ensuring (run body) (run finish); run (k x)
  end.

End Run.

End Effect.

(** ** Vocabulary for the statements *)

(** The length of the compressed scanline fits the 32-bit length field. *)
Definition fits (compress : bytes → bytes) : Prop :=
  (Z.of_nat (length (compress Png.scanline)) < 2 ^ 32)%Z.

(** Where the image goes: the first argument after the program name when
    there is one, the default name otherwise. *)
Definition destination (argv : list string) : string :=
  default "example.png"%string (argv !! 1%nat).

(** The line that reports a file of [n] bytes at [path]. *)
Definition report (path : string) (n : nat) : string :=
  "Generated " +:+ path +:+ " (" +:+ str n +:+ " bytes)".

(** The world after a run that wrote [png] at [path] and reported it. *)
Definition written (path : string) (png : bytes) (w : world) : world :=
  World (<[path := png]> (files w))
        (stdout w ++ [report path (length png)])
        (stderr w)
        (log w ++ [EvOpen path "wb"; EvWrite path png; EvClose path;
                   EvPrint (report path (length png))]).

(** ** Some hosts

    Concrete operating-system behaviours and worlds to run the script in. *)

Module Host.

Definition no_open_fault : string → option os_error := fun _ => None.

Definition no_write_fault : string → bytes → option (nat * os_error) :=
  fun _ _ => None.

(** Only the current directory exists. *)
Definition missing_dir : string → option os_error :=
  fun path =>
    if bool_decide (path = "nodir/out.png"%string)
    then Some FileNotFoundError else None.

(** The disk is full: nothing reaches the file. *)
Definition disk_full : string → bytes → option (nat * os_error) :=
  fun _ _ => Some (O, OtherOSError 28).

Definition fresh : world := World ∅ [] [] [].

(** A world where [out.png] already holds something. *)
Definition used : world :=
  World {[ "out.png"%string := [x01; x02; x03] ]} [] [] [].

(** zlib 1.2.13 at its default level, on the one input the script has;
    stored blocks elsewhere. *)
Definition zlib_default (d : bytes) : bytes :=
  if decide (d = Png.scanline)
  then [x78; x9c; x63; x60; x00; x02; x00; x00; x05; x00; x01]
  else Zlib.compress_stored d.

(** A routine whose answer is too long for a 32-bit length field. *)
Definition huge : bytes → bytes :=
  fun _ => replicate (Z.to_nat (2 ^ 32)) x00.

End Host.

(** * Values checked against the libraries *)

Example crc32_IEND : Zlib.crc32 (Bytes.lit "IEND") = 0xAE426082%Z.
Proof. reflexivity. Qed.

Example adler32_zeros : Zlib.adler32 [x00; x00; x00; x00; x00] = 0x00050001%Z.
Proof. reflexivity. Qed.

Example pack_header :
  Struct.pack ">LLBBBBB" [1; 1; 8; 6; 0; 0; 0]%Z
  = Ok [x00; x00; x00; x01; x00; x00; x00; x01; x08; x06; x00; x00; x00].
Proof. reflexivity. Qed.

Example pack_range : Struct.pack ">L" [2 ^ 32]%Z = Raise StructError.
Proof. reflexivity. Qed.

Example compress_stored_zeros :
  Zlib.compress_stored [x00; x00; x00; x00; x00]
  = [x78; x01; x01; x05; x00; xfa; xff; x00; x00; x00; x00; x00;
     x00; x05; x00; x01].
Proof. reflexivity. Qed.

Example decompress_stored_zeros :
  Zlib.decompress (Zlib.compress_stored [x00; x00; x00; x00; x00])
  = Some [x00; x00; x00; x00; x00].
Proof. vm_compute. reflexivity. Qed.

(** The stream zlib 1.2.13 gives for five zero bytes at its default level:
    two literals and a match of length 3 at distance 1, fixed codes. *)
Example decompress_fixed_zeros :
  Zlib.decompress [x78; x9c; x63; x60; x00; x02; x00; x00; x05; x00; x01]
  = Some [x00; x00; x00; x00; x00].
Proof. vm_compute. reflexivity. Qed.

Example decompress_bad_checksum :
  Zlib.decompress [x78; x9c; x63; x60; x00; x02; x00; x00; x05; x00; x02]
  = None.
Proof. vm_compute. reflexivity. Qed.

(** * Facts about the building blocks *)

Section ByteFacts.

Local Open Scope Z_scope.

Lemma to_Z_range (b : byte) : (0 ≤ Bytes.to_Z b < 256)%Z.
Proof.
  unfold Bytes.to_Z. pose proof (Byte.to_N_bounded b). lia.
Qed.

Lemma land_255 (z : Z) : Z.land z 255 = (z mod 256)%Z.
Proof. change 255%Z with (Z.ones 8). by rewrite Z.land_ones. Qed.

Lemma to_of_Z (z : Z) : Bytes.to_Z (Bytes.of_Z z) = (z mod 256)%Z.
Proof.
  unfold Bytes.to_Z, Bytes.of_Z. rewrite land_255.
  pose proof (Z.mod_pos_bound z 256 eq_refl) as Hr.
  destruct (Byte.of_N (Z.to_N (z mod 256))) as [b|] eqn:E.
  - apply Byte.to_of_N in E. rewrite E. lia.
  - apply Byte.of_N_None_iff in E. lia.
Qed.

Lemma of_to_Z (b : byte) : Bytes.of_Z (Bytes.to_Z b) = b.
Proof.
  pose proof (to_Z_range b) as Hr.
  unfold Bytes.of_Z. rewrite land_255, Z.mod_small by done.
  unfold Bytes.to_Z. by rewrite N2Z.id, Byte.of_to_N.
Qed.

Lemma be_decode_be32 (v : Z) :
  (0 ≤ v < 2 ^ 32)%Z → Bytes.be_decode (Bytes.be32 v) = v.
Proof.
  intros Hv. unfold Bytes.be_decode, Bytes.be32. cbn [fold_left].
  rewrite !to_of_Z, !Z.shiftr_div_pow2 by lia.
  change (2 ^ 24)%Z with 16777216%Z. change (2 ^ 16)%Z with 65536%Z.
  change (2 ^ 8)%Z with 256%Z. change (2 ^ 32)%Z with 4294967296%Z in Hv.
  Z.div_mod_to_equations. lia.
Qed.

Lemma length_be32 (v : Z) : length (Bytes.be32 v) = 4%nat.
Proof. reflexivity. Qed.

End ByteFacts.

Section CrcFacts.

Local Open Scope Z_scope.

Lemma lxor_range32 (a b : Z) :
  (0 ≤ a < 2 ^ 32)%Z → (0 ≤ b < 2 ^ 32)%Z → (0 ≤ Z.lxor a b < 2 ^ 32)%Z.
Proof.
  intros Ha Hb. split; [apply Z.lxor_nonneg; lia|].
  destruct (decide (Z.lxor a b = 0)) as [->|Hne]; [done|].
  assert (0 ≤ Z.lxor a b)%Z as Hnn by (apply Z.lxor_nonneg; lia).
  apply Z.log2_lt_pow2; [lia|].
  pose proof (Z.log2_lxor a b (proj1 Ha) (proj1 Hb)) as Hl.
  assert (Z.log2 a < 32)%Z.
  { destruct (decide (a = 0)) as [->|]; [done|]. apply Z.log2_lt_pow2; lia. }
  assert (Z.log2 b < 32)%Z.
  { destruct (decide (b = 0)) as [->|]; [done|]. apply Z.log2_lt_pow2; lia. }
  lia.
Qed.

Lemma step_range (c : Z) :
  (0 ≤ c < 2 ^ 32)%Z → (0 ≤ Zlib.crc_step c < 2 ^ 32)%Z.
Proof.
  intros Hc. unfold Zlib.crc_step.
  assert (0 ≤ Z.shiftr c 1 < 2 ^ 32)%Z as Hs.
  { rewrite Z.shiftr_div_pow2 by lia. change (2 ^ 1)%Z with 2%Z.
    split; [apply Z.div_pos; lia|].
    apply Z.div_lt_upper_bound; lia. }
  destruct (Z.testbit c 0); [apply lxor_range32|]; done.
Qed.

Lemma update_range (c : Z) (b : byte) :
  (0 ≤ c < 2 ^ 32)%Z → (0 ≤ Zlib.crc_update c b < 2 ^ 32)%Z.
Proof.
  intros Hc. unfold Zlib.crc_update.
  assert (0 ≤ Z.lxor c (Bytes.to_Z b) < 2 ^ 32)%Z as H0.
  { apply lxor_range32; [done|]. pose proof (to_Z_range b). lia. }
  generalize dependent (Z.lxor c (Bytes.to_Z b)). intros x Hx.
  do 8 (rewrite Nat.iter_succ_r; apply step_range in Hx;
        revert Hx; generalize (Zlib.crc_step x); clear x; intros x Hx).
  done.
Qed.

(** [zlib.crc32] is an unsigned 32-bit number. *)
Lemma crc32_range (data : bytes) : (0 ≤ Zlib.crc32 data < 2 ^ 32)%Z.
Proof.
  unfold Zlib.crc32. apply lxor_range32; [|done].
  assert (0 ≤ 0xFFFFFFFF < 2 ^ 32)%Z as H0 by done.
  revert H0. generalize 0xFFFFFFFF%Z.
  induction data as [|b data IH]; intros c Hc; [done|].
  cbn [fold_left]. apply IH. by apply update_range.
Qed.

(** So masking it with [0xffffffff] changes nothing. *)
Lemma crc32_mask (data : bytes) :
  Z.land (Zlib.crc32 data) 0xffffffff = Zlib.crc32 data.
Proof.
  change 0xffffffff%Z with (Z.ones 32). rewrite Z.land_ones by done.
  apply Z.mod_small, crc32_range.
Qed.

End CrcFacts.

Section StructFacts.

Local Open Scope Z_scope.

Lemma bind_Ok {A B : Type} (a : A) (f : A → result B) : (Ok a ≫= f) = f a.
Proof. reflexivity. Qed.

Lemma pack_L (v : Z) :
  0 ≤ v < 2 ^ 32 → Struct.pack ">L" [v] = Ok (Bytes.be32 v).
Proof.
  intros [Hl Hu]. unfold Struct.pack. cbn.
  rewrite (proj2 (Z.leb_le _ _)), (proj2 (Z.ltb_lt _ _)) by done.
  reflexivity.
Qed.

(** Outside that range the call raises. *)
Lemma pack_L_raise (v : Z) :
  ¬ (0 ≤ v < 2 ^ 32) → Struct.pack ">L" [v] = Raise StructError.
Proof.
  intros Hv. unfold Struct.pack. cbn.
  destruct (0 <=? v) eqn:E1; [|done].
  destruct (v <? 2 ^ 32) eqn:E2; [|done].
  apply Z.leb_le in E1. apply Z.ltb_lt in E2. lia.
Qed.

End StructFacts.

Section ReaderFacts.

Local Open Scope Z_scope.

(** The reader on a framed payload: four bytes of length, four of tag,
    the payload, four of checksum. *)
Lemma read_chunk_frame (L T p C rest : bytes) :
  length L = 4%nat → length T = 4%nat → length C = 4%nat →
  Bytes.be_decode L = Z.of_nat (length p) →
  Png.read_chunk (L ++ T ++ p ++ C ++ rest)
  = Some (Png.Chunk (Z.of_nat (length p)) T p (Bytes.be_decode C), rest).
Proof.
  intros HL HT HC HD. unfold Png.read_chunk.
  assert ((length (L ++ T ++ p ++ C ++ rest) <? 8)%nat = false) as ->.
  { apply Nat.ltb_ge. rewrite !length_app. lia. }
  rewrite (take_app_length' L) by done. rewrite HD, Nat2Z.id.
  assert (drop 8 (L ++ T ++ p ++ C ++ rest) = p ++ C ++ rest) as ->.
  { rewrite (app_assoc L T). apply drop_app_length'.
    rewrite length_app. lia. }
  assert ((Z.of_nat (length (p ++ C ++ rest)) <? Z.of_nat (length p) + 4)
          = false) as ->.
  { apply Z.ltb_ge. rewrite !length_app. lia. }
  rewrite (drop_app_length' L) by done.
  rewrite (take_app_length' T) by done.
  rewrite take_app_length, drop_app_length.
  rewrite (take_app_length' C) by done.
  rewrite (drop_app_add' p) by done.
  by rewrite (drop_app_length' C).
Qed.

Lemma read_chunk_spec_chunk (tag : string) (p rest : bytes) :
  length (Bytes.lit tag) = 4%nat →
  Z.of_nat (length p) < 2 ^ 32 →
  Png.read_chunk (Png.spec_chunk tag p ++ rest)
  = Some (Png.Chunk (Z.of_nat (length p)) (Bytes.lit tag) p
            (Zlib.crc32 (Bytes.lit tag ++ p)), rest).
Proof.
  intros Ht Hp. unfold Png.spec_chunk. rewrite <- !app_assoc.
  rewrite read_chunk_frame; try done.
  - by rewrite be_decode_be32 by apply crc32_range.
  - apply be_decode_be32. lia.
Qed.

Lemma read_chunks_more (fuel fuel' : nat) (bs : bytes) (cs : list Png.chunk) :
  Png.read_chunks fuel bs = Some cs → (fuel ≤ fuel')%nat →
  Png.read_chunks fuel' bs = Some cs.
Proof.
  revert fuel' bs cs.
  induction fuel as [|fuel IH]; intros fuel' bs cs H Hle.
  - destruct bs; [|done]. by destruct fuel'.
  - destruct fuel' as [|fuel']; [lia|].
    destruct bs as [|b bs]; [done|]. cbn [Png.read_chunks] in *.
    destruct (Png.read_chunk (b :: bs)) as [[c rest]|]; [|done].
    cbn in *. destruct (Png.read_chunks fuel rest) as [cs'|] eqn:E; [|done].
    rewrite (IH fuel' rest cs' E) by lia. done.
Qed.

Lemma read_chunks_spec_chunk (fuel : nat) (tag : string) (p rest : bytes)
      (cs : list Png.chunk) :
  length (Bytes.lit tag) = 4%nat →
  Z.of_nat (length p) < 2 ^ 32 →
  Png.read_chunks fuel rest = Some cs →
  Png.read_chunks (S fuel) (Png.spec_chunk tag p ++ rest)
  = Some (Png.Chunk (Z.of_nat (length p)) (Bytes.lit tag) p
            (Zlib.crc32 (Bytes.lit tag ++ p)) :: cs).
Proof.
  intros Ht Hp Hr.
  pose proof (read_chunk_spec_chunk tag p rest Ht Hp) as Hc.
  destruct (Png.spec_chunk tag p ++ rest) as [|b bs] eqn:E.
  - apply (f_equal length) in E. unfold Png.spec_chunk in E.
    rewrite !length_app in E. cbn in E. lia.
  - cbn [Png.read_chunks]. rewrite Hc. cbn. by rewrite Hr.
Qed.

End ReaderFacts.

(** * The stored-block routine and the inflater *)

Section ZlibFacts.

Local Open Scope Z_scope.

Lemma adler32_range (data : bytes) : 0 ≤ Zlib.adler32 data < 2 ^ 32.
Proof.
  unfold Zlib.adler32.
  assert (∀ s, 0 ≤ fst s < 65521 → 0 ≤ snd s < 65521 →
               0 ≤ fst (fold_left Zlib.adler_step data s) < 65521
               ∧ 0 ≤ snd (fold_left Zlib.adler_step data s) < 65521) as Hinv.
  { induction data as [|b data IH]; intros s Ha Hb; [done|].
    cbn [fold_left]. apply IH; unfold Zlib.adler_step; cbn [fst snd];
      apply Z.mod_pos_bound; lia. }
  destruct (Hinv (1, 0)) as [Ha Hb]; [done|done|].
  revert Ha Hb. generalize (fold_left Zlib.adler_step data (1, 0)).
  intros [a b]. cbn [fst snd]. intros Ha Hb.
  assert (0 ≤ b ≪ 16 < 2 ^ 32) as Hs.
  { rewrite Z.shiftl_mul_pow2 by lia. lia. }
  split; [apply Z.lor_nonneg; lia|].
  destruct (decide (Z.lor (b ≪ 16) a = 0)) as [->|Hne]; [done|].
  assert (0 ≤ Z.lor (b ≪ 16) a) by (apply Z.lor_nonneg; lia).
  apply Z.log2_lt_pow2; [lia|].
  rewrite Z.log2_lor by lia.
  assert (Z.log2 (b ≪ 16) < 32).
  { destruct (decide (b ≪ 16 = 0)) as [->|]; [done|].
    apply Z.log2_lt_pow2; lia. }
  assert (Z.log2 a < 32).
  { destruct (decide (a = 0)) as [->|]; [done|].
    apply Z.log2_lt_pow2; lia. }
  lia.
Qed.

Lemma lxor_range16 (n : Z) :
  0 ≤ n < 2 ^ 16 → 0 ≤ Z.lxor n 0xFFFF < 2 ^ 16.
Proof.
  intros Hn. split; [apply Z.lxor_nonneg; lia|].
  destruct (decide (Z.lxor n 0xFFFF = 0)) as [->|Hne]; [done|].
  assert (0 ≤ Z.lxor n 0xFFFF) by (apply Z.lxor_nonneg; lia).
  apply Z.log2_lt_pow2; [lia|].
  pose proof (Z.log2_lxor n 0xFFFF) as Hl.
  assert (Z.log2 n < 16).
  { destruct (decide (n = 0)) as [->|]; [done|]. apply Z.log2_lt_pow2; lia. }
  assert (Z.log2 0xFFFF < 16) by done.
  lia.
Qed.

(** Reading back the two bytes of [le16]. *)
Lemma le16_decode (n : Z) :
  0 ≤ n < 2 ^ 16 →
  Bytes.to_Z (Bytes.of_Z n) + 256 * Bytes.to_Z (Bytes.of_Z (n ≫ 8)) = n.
Proof.
  intros Hn. rewrite !to_of_Z, Z.shiftr_div_pow2 by lia.
  change (2 ^ 8) with 256. change (2 ^ 16) with 65536 in Hn.
  Z.div_mod_to_equations. lia.
Qed.

Lemma inflate_stored_block (d rest out : bytes) :
  Z.of_nat (length d) ≤ 65535 →
  Zlib.inflate_stored
    (Zlib.le16 (Z.of_nat (length d))
     ++ Zlib.le16 (Z.lxor (Z.of_nat (length d)) 0xFFFF) ++ d ++ rest) out
  = Some (rev d ++ out, (rest, O)).
Proof.
  intros Hd. unfold Zlib.le16. cbn [app Zlib.inflate_stored].
  assert (0 ≤ Z.of_nat (length d) < 2 ^ 16) as Hn by lia.
  rewrite (le16_decode _ Hn), (le16_decode _ (lxor_range16 _ Hn)).
  rewrite Z.eqb_refl. cbn [negb].
  assert ((Z.of_nat (length (d ++ rest)) <? Z.of_nat (length d)) = false)
    as ->.
  { apply Z.ltb_ge. rewrite length_app. lia. }
  by rewrite Nat2Z.id, take_app_length, drop_app_length.
Qed.

(** One stored block: the last one ends the stream, another one hands
    over to the blocks that follow. *)
Lemma inflate_blocks_stored (final : bool) (fuel : nat) (d rest out : bytes) :
  Z.of_nat (length d) ≤ 65535 →
  Zlib.inflate_blocks (S fuel) (Zlib.stored_block final d ++ rest, O) out
  = if final then Some (rev d ++ out, (rest, O))
    else Zlib.inflate_blocks fuel (rest, O) (rev d ++ out).
Proof.
  intros Hd. unfold Zlib.stored_block. rewrite <- !app_comm_cons.
  rewrite <- !app_assoc.
  pose proof (inflate_stored_block d rest out Hd) as Hs.
  revert Hs. generalize (Zlib.le16 (Z.of_nat (length d))
     ++ Zlib.le16 (Z.lxor (Z.of_nat (length d)) 0xFFFF) ++ d ++ rest).
  intros body Hs. cbn [Zlib.inflate_blocks].
  destruct final.
  - change (Zlib.read_bits 1 (x01 :: body, O))
      with (Some (1, (x01 :: body, 1%nat))).
    cbn [mbind option_bind].
    change (Zlib.read_bits 2 (x01 :: body, 1%nat))
      with (Some (0, (x01 :: body, 3%nat))).
    cbn [mbind option_bind Z.eqb Zlib.align tail]. rewrite Hs. done.
  - change (Zlib.read_bits 1 (x00 :: body, O))
      with (Some (0, (x00 :: body, 1%nat))).
    cbn [mbind option_bind].
    change (Zlib.read_bits 2 (x00 :: body, 1%nat))
      with (Some (0, (x00 :: body, 3%nat))).
    cbn [mbind option_bind Z.eqb Zlib.align tail]. rewrite Hs. done.
Qed.

Lemma max_stored_Z : Z.of_nat Zlib.max_stored = 65535.
Proof. unfold Zlib.max_stored. by rewrite Z2Nat.id. Qed.

Lemma inflate_stored_blocks (n : nat) :
  ∀ (fuel : nat) (d rest out : bytes),
    (length d ≤ n)%nat → (n < fuel)%nat →
    Zlib.inflate_blocks fuel (Zlib.stored_blocks n d ++ rest, O) out
    = Some (rev d ++ out, (rest, O)).
Proof.
  induction n as [|n IH]; intros fuel d rest out Hd Hfuel.
  - destruct fuel as [|fuel]; [lia|]. cbn [Zlib.stored_blocks].
    rewrite inflate_blocks_stored; [done|lia].
  - destruct fuel as [|fuel]; [lia|]. cbn [Zlib.stored_blocks].
    destruct (Z.of_nat (length d) <=? 65535) eqn:E.
    + apply Z.leb_le in E. by rewrite inflate_blocks_stored.
    + apply Z.leb_gt in E. pose proof max_stored_Z as Hm.
      rewrite <- app_assoc, inflate_blocks_stored.
      2:{ rewrite length_take.
          pose proof (Nat.le_min_l Zlib.max_stored (length d)) as Hmin.
          apply Nat2Z.inj_le in Hmin. by rewrite Hm in Hmin. }
      rewrite IH; [|rewrite length_drop; lia|lia].
      by rewrite app_assoc, <- rev_app_distr, take_drop.
Qed.

Lemma length_stored_blocks (n : nat) (d : bytes) :
  (length d ≤ length (Zlib.stored_blocks n d))%nat.
Proof.
  revert d. induction n as [|n IH]; intros d; cbn [Zlib.stored_blocks].
  - cbn. lia.
  - destruct (Z.of_nat (length d) <=? 65535).
    + cbn. lia.
    + rewrite length_app. cbn [Zlib.stored_block Zlib.le16 app length].
      pose proof (IH (drop Zlib.max_stored d)) as Hdrop.
      rewrite <- (take_drop Zlib.max_stored d) at 1.
      rewrite length_app. lia.
Qed.

(** What the stored-block routine writes, the inflater reads back. *)
Lemma decompress_compress_stored (d : bytes) :
  Zlib.decompress (Zlib.compress_stored d) = Some d.
Proof.
  unfold Zlib.compress_stored. cbn [app].
  generalize (eq_refl (Zlib.stored_blocks (length d) d
                       ++ Bytes.be32 (Zlib.adler32 d))).
  generalize (Zlib.stored_blocks (length d) d
              ++ Bytes.be32 (Zlib.adler32 d)) at 2 3 as body.
  intros body Hbody.
  change (Zlib.decompress (x78 :: x01 :: body))
    with ('(out, r) ← Zlib.inflate_blocks (length body + 1) (body, O) [];
          if (length (Zlib.align r) =? 4)%nat
             && (Bytes.be_decode (Zlib.align r) =? Zlib.adler32 (rev out))
          then Some (rev out) else None).
  subst body. rewrite inflate_stored_blocks; [|done|].
  2:{ rewrite length_app. pose proof (length_stored_blocks (length d) d). lia. }
  cbn [mbind option_bind Zlib.align]. rewrite app_nil_r, rev_involutive.
  rewrite be_decode_be32 by apply adler32_range.
  by rewrite Z.eqb_refl.
Qed.

(** The same for the routine that has zlib's own answer on the scanline. *)
Lemma decompress_zlib_default (d : bytes) :
  Zlib.decompress (Host.zlib_default d) = Some d.
Proof.
  unfold Host.zlib_default. destruct (decide (d = Png.scanline)) as [->|].
  - vm_compute. reflexivity.
  - apply decompress_compress_stored.
Qed.

End ZlibFacts.

(** * The byte sequence *)

Section ImageFacts.

Local Open Scope Z_scope.

Variable compress : bytes → bytes.

Lemma pack_header_1x1 :
  Struct.pack ">LLBBBBB" [1; 1; 8; 6; 0; 0; 0] = Ok Png.header_1x1.
Proof. reflexivity. Qed.

(** What [create_png_data] returns, when it returns. *)
Lemma create_png_data_Ok :
  fits compress →
  create_png_data compress = Ok (Png.spec_file (compress Png.scanline)).
Proof.
  intros Hfits. unfold create_png_data. rewrite pack_header_1x1.
  rewrite bind_Ok. cbv zeta. rewrite !crc32_mask.
  rewrite !pack_L, !bind_Ok; try apply crc32_range; try done.
  split; [lia|done].
Qed.

(** Otherwise packing the length of the compressed data raises. *)
Lemma create_png_data_Raise :
  ¬ fits compress → create_png_data compress = Raise StructError.
Proof.
  intros Hfits. unfold create_png_data. rewrite pack_header_1x1.
  rewrite bind_Ok. cbv zeta. rewrite !crc32_mask.
  rewrite (pack_L (Z.of_nat (length Png.header_1x1))) by done.
  rewrite (pack_L (Zlib.crc32 (Bytes.lit "IHDR" ++ Png.header_1x1)))
    by apply crc32_range.
  rewrite !bind_Ok.
  rewrite (pack_L_raise (Z.of_nat (length (compress _)))); [reflexivity|].
  unfold fits, Png.scanline in Hfits. lia.
Qed.

Lemma read_spec_file (idat : bytes) :
  Z.of_nat (length idat) < 2 ^ 32 →
  Png.read (Png.spec_file idat)
  = Some [ Png.Chunk 13 (Bytes.lit "IHDR") Png.header_1x1
             (Zlib.crc32 (Bytes.lit "IHDR" ++ Png.header_1x1));
           Png.Chunk (Z.of_nat (length idat)) (Bytes.lit "IDAT") idat
             (Zlib.crc32 (Bytes.lit "IDAT" ++ idat));
           Png.Chunk 0 (Bytes.lit "IEND") []
             (Zlib.crc32 (Bytes.lit "IEND" ++ [])) ].
Proof.
  intros Hlen. unfold Png.read, Png.spec_file.
  rewrite (take_app_length' Png.signature) by done.
  rewrite decide_True by done.
  rewrite (drop_app_length' Png.signature) by done.
  apply (read_chunks_more 3).
  - rewrite <- (app_nil_r (Png.spec_chunk "IEND" [])).
    by repeat (apply read_chunks_spec_chunk; [done|done|]).
  - rewrite !length_app. cbn. lia.
Qed.

Lemma length_spec_chunk (tag : string) (p : bytes) :
  length (Png.spec_chunk tag p)
  = (8 + length (Bytes.lit tag) + length p)%nat.
Proof. unfold Png.spec_chunk. rewrite !length_app, !length_be32. lia. Qed.

(** C1.  Read back chunk by chunk, the sequence that [create_png_data]
    returns consists of an IHDR, an IDAT and an IEND chunk holding the
    payloads the function built; in each of them the stored length is
    the number of payload bytes and the stored CRC is [crc32] of the tag
    followed by the payload. *)
Theorem chunk_fields_agree :
  fits compress →
  ∃ out cs,
    create_png_data compress = Ok out
    ∧ Png.read out = Some cs
    ∧ Png.c_tag <$> cs
      = [Bytes.lit "IHDR"; Bytes.lit "IDAT"; Bytes.lit "IEND"]
    ∧ Png.c_payload <$> cs
      = [Png.header_1x1; compress Png.scanline; []]
    ∧ Forall Png.chunk_ok cs.
Proof.
  intros Hfits. eexists _, _.
  split; [by apply create_png_data_Ok|].
  split; [by apply read_spec_file|].
  split; [done|]. split; [done|].
  repeat constructor.
Qed.

(** C2.  The sequence that [create_png_data] returns is the signature
    89 50 4E 47 0D 0A 1A 0A, then the IHDR chunk, then the IDAT chunk,
    then the IEND chunk, each serialized as length, tag, payload, CRC,
    and nothing more; its first eight bytes are the signature. *)
Theorem signature_then_three_chunks :
  fits compress →
  ∃ out,
    create_png_data compress = Ok out
    ∧ out = [x89; x50; x4e; x47; x0d; x0a; x1a; x0a]
            ++ Png.spec_chunk "IHDR" Png.header_1x1
            ++ Png.spec_chunk "IDAT" (compress Png.scanline)
            ++ Png.spec_chunk "IEND" []
    ∧ take 8 out = [x89; x50; x4e; x47; x0d; x0a; x1a; x0a].
Proof.
  intros Hfits. eexists. split; [by apply create_png_data_Ok|]. done.
Qed.

(** C3.  The payload of the IHDR chunk in the returned sequence has 13
    bytes and decodes, as two big-endian 32-bit numbers and five bytes,
    to width 1, height 1, bit depth 8, colour type 6, compression 0,
    filter 0, interlace 0. *)
Theorem header_decodes :
  fits compress →
  ∃ out cs p,
    create_png_data compress = Ok out
    ∧ Png.read out = Some cs
    ∧ Png.payload_of "IHDR" cs = Some p
    ∧ length p = 13%nat
    ∧ Png.decode_header p = Some (Png.Header 1 1 8 6 0 0 0).
Proof.
  intros Hfits. eexists _, _, _.
  split; [by apply create_png_data_Ok|].
  split; [by apply read_spec_file|]. done.
Qed.

(** C10.  The returned sequence has 57 + n bytes, n being the number of
    bytes of the compressed scanline: 8 of signature, 25 of IHDR chunk
    with its 13 payload bytes, 12 + n of IDAT chunk, and the 12 bytes
    00 00 00 00 49 45 4E 44 and CRC of the IEND chunk. *)
Theorem total_length :
  fits compress →
  let n := length (compress Png.scanline) in
  ∃ out ihdr idat iend,
    create_png_data compress = Ok out
    ∧ out = Png.signature ++ ihdr ++ idat ++ iend
    ∧ length out = (57 + n)%nat
    ∧ length Png.signature = 8%nat
    ∧ ihdr = Png.spec_chunk "IHDR" Png.header_1x1
    ∧ length Png.header_1x1 = 13%nat
    ∧ length ihdr = 25%nat
    ∧ idat = Png.spec_chunk "IDAT" (compress Png.scanline)
    ∧ length idat = (12 + n)%nat
    ∧ iend = [x00; x00; x00; x00; x49; x45; x4e; x44]
             ++ Bytes.be32 (Zlib.crc32 (Bytes.lit "IEND"))
    ∧ length iend = 12%nat.
Proof.
  intros Hfits n. eexists _, _, _, _.
  split; [by apply create_png_data_Ok|].
  split; [reflexivity|].
  split.
  { unfold Png.spec_file. rewrite !length_app, !length_spec_chunk.
    cbn. lia. }
  do 3 (split; [done|]).
  split; [done|]. split; [done|].
  split; [by rewrite length_spec_chunk|]. done.
Qed.

End ImageFacts.

(** * Purity *)

Section Purity.

Variable compress : bytes → bytes.

Lemma call_bind {A B : Type} (r : result A) (f : A → io B) (w : world) :
  (call r ≫= f) w
  = match r with Ok a => f a w | Raise e => (Raise e, w) end.
Proof. by destruct r. Qed.

(** A tree that asks for library routines only has one result, whatever
    the command line, the operating system and the world it is run in, and
    leaves the world as it was. *)
Lemma run_library_only {A : Type} (p : Effect.prog A) :
  Effect.library_only p →
  ∃ r : result A,
    ∀ open_fault write_fault argv (w : world),
      Effect.run compress open_fault write_fault argv p w = (r, w).
Proof.
  induction p as [A a|X A c k IH|X A body IHbody finish IHfinish k IH];
    cbn [Effect.library_only Effect.run].
  - intros _. by exists (Ok a).
  - intros [Hc Hk].
    assert (∃ r : result X,
              ∀ open_fault write_fault argv (w : world),
                Effect.answer compress open_fault write_fault argv c w
                = (r, w)) as [[x|e] Hr].
    { destruct c; try discriminate Hc; by eexists. }
    + destruct (IH x (Hk x)) as [r Hrun]. exists r.
      intros open_fault write_fault argv w.
      unfold mbind, io_bind. by rewrite Hr.
    + exists (Raise e). intros open_fault write_fault argv w.
      unfold mbind, io_bind. by rewrite Hr.
  - intros (Hbody & Hfinish & Hk).
    destruct (IHbody Hbody) as [rb Hrb].
    destruct (IHfinish Hfinish) as [rf Hrf].
    destruct rb as [x|e].
    + destruct rf as [u|e].
      * destruct (IH x (Hk x)) as [r Hrun]. exists r.
        intros open_fault write_fault argv w.
        unfold mbind, io_bind, ensuring. by rewrite Hrb, Hrf.
      * exists (Raise e). intros open_fault write_fault argv w.
        unfold mbind, io_bind, ensuring. by rewrite Hrb, Hrf.
    + exists (Raise e). intros open_fault write_fault argv w.
      unfold mbind, io_bind, ensuring. by rewrite Hrb, Hrf.
Qed.

Lemma create_png_data_library_only :
  Effect.library_only Effect.create_png_data.
Proof. unfold Effect.create_png_data. cbn. repeat split. Qed.

(** Run, the tree gives what the function of the script section gives. *)
Lemma run_create_png_data open_fault write_fault argv (w : world) :
  Effect.run compress open_fault write_fault argv Effect.create_png_data w
  = (create_png_data compress, w).
Proof.
  unfold Effect.create_png_data, create_png_data.
  cbn [Effect.run Effect.answer]. cbv zeta.
  repeat (rewrite call_bind;
          try match goal with
            | |- context [Struct.pack ?f ?a] =>
                destruct (Struct.pack f a); [rewrite ?bind_Ok|reflexivity]
            end).
  reflexivity.
Qed.

(** C5.  The body of [create_png_data] asks for routines of [struct] and
    [zlib] only: it reads nothing of the command line and makes no call
    to the operating system.  So with the compression routine fixed, any
    two calls, whatever the command lines, operating systems and worlds
    they are made in, return the same thing, the value of
    [create_png_data], and leave their worlds as they were. *)
Theorem create_png_data_pure_and_deterministic :
  Effect.library_only Effect.create_png_data
  ∧ ∀ open_fault1 write_fault1 argv1 (w1 : world)
      open_fault2 write_fault2 argv2 (w2 : world),
      let r1 := Effect.run compress open_fault1 write_fault1 argv1
                  Effect.create_png_data w1 in
      let r2 := Effect.run compress open_fault2 write_fault2 argv2
                  Effect.create_png_data w2 in
      fst r1 = fst r2
      ∧ snd r1 = w1
      ∧ snd r2 = w2
      ∧ fst r1 = create_png_data compress.
Proof.
  split; [apply create_png_data_library_only|].
  destruct (run_library_only _ create_png_data_library_only) as [r Hr].
  intros open_fault1 write_fault1 argv1 w1 open_fault2 write_fault2 argv2 w2.
  cbv zeta. rewrite !Hr. cbn [fst snd].
  split; [reflexivity|]. split; [reflexivity|]. split; [reflexivity|].
  pose proof (Hr open_fault1 write_fault1 argv1 w1) as H1.
  rewrite run_create_png_data in H1. congruence.
Qed.

(** The trees of the other functions do not pass: [main] reads the
    command line and writes a file, and a function that prints its
    argument returns different things in different runs. *)
Lemma main_not_library_only : ¬ Effect.library_only Effect.main.
Proof. cbn. intros [H _]. discriminate H. Qed.

Lemma print_argument_depends_on_argv :
  fst (Effect.run compress Host.no_open_fault Host.no_write_fault
         ["p"; "a"]%string Effect.print_argument Host.fresh)
  ≠ fst (Effect.run compress Host.no_open_fault Host.no_write_fault
           ["p"; "b"]%string Effect.print_argument Host.fresh).
Proof. cbn. discriminate. Qed.

End Purity.

Section TreeFacts.

Variable compress : bytes → bytes.
Variable open_fault : string → option os_error.
Variable write_fault : string → bytes → option (nat * os_error).
Variable argv : list string.

Lemma run_bind {A B : Type} (p : Effect.prog A) (f : A → Effect.prog B)
      (w : world) :
  Effect.run compress open_fault write_fault argv (Effect.bind p f) w
  = (x ← Effect.run compress open_fault write_fault argv p;
     Effect.run compress open_fault write_fault argv (f x)) w.
Proof.
  revert B f w.
  induction p as [A a|X A c k IH|X A body _ finish _ k IH]; intros B f w;
    cbn [Effect.bind Effect.run].
  - reflexivity.
  - unfold mbind, io_bind.
    destruct (Effect.answer compress open_fault write_fault argv c w)
      as [[x|e] w1]; [apply IH|reflexivity].
  - unfold mbind, io_bind.
    destruct (ensuring
                (Effect.run compress open_fault write_fault argv body)
                (Effect.run compress open_fault write_fault argv finish) w)
      as [[x|e] w1]; [apply IH|reflexivity].
Qed.

(** The tree of [main], run, is the [main] of the script section. *)
Lemma run_main (w : world) :
  Effect.run compress open_fault write_fault argv Effect.main w
  = main compress open_fault write_fault argv w.
Proof.
  unfold Effect.main, main. cbn [Effect.run Effect.answer].
  rewrite call_bind. rewrite run_bind.
  unfold mbind at 1 4. unfold io_bind at 1 4.
  rewrite run_create_png_data. unfold call at 1.
  destruct (create_png_data compress) as [png|e]; [|reflexivity].
  cbn [Effect.run Effect.answer].
  unfold mbind, io_bind, mret, io_ret, open_wb, ensuring, write, close, print.
  destruct (open_fault _); [reflexivity|].
  destruct (write_fault _ _) as [[k e]|]; reflexivity.
Qed.

End TreeFacts.

(** * Runs of the script *)

Section RunFacts.

Variable compress : bytes → bytes.
Variable open_fault : string → option os_error.
Variable write_fault : string → bytes → option (nat * os_error).


Lemma output_file_destination (argv : list string) :
  (if bool_decide (1 < length argv) then nth 1 argv ""%string
   else "example.png"%string) = destination argv.
Proof. by destruct argv as [|a [|b l]]. Qed.

Lemma main_unfold (argv : list string) (w : world) (png : bytes) :
  create_png_data compress = Ok png →
  main compress open_fault write_fault argv w
  = let p := destination argv in
    match open_fault p with
    | Some e =>
        (Raise (OSError e p),
         World (files w) (stdout w) (stderr w) (log w ++ [EvOpen p "wb"]))
    | None =>
        match write_fault p png with
        | Some (k, e) =>
            (Raise (OSError e p),
             World (<[p := take k png]> (files w)) (stdout w) (stderr w)
               (log w ++ [EvOpen p "wb"; EvWrite p png; EvClose p]))
        | None => (Ok tt, written p png w)
        end
    end.
Proof.
  intros Hpng. unfold main. rewrite output_file_destination.
  generalize (destination argv) as p. intros p. cbv zeta.
  unfold mbind at 1. unfold io_bind at 1. unfold call at 1. rewrite Hpng.
  unfold mbind, io_bind, open_wb, ensuring, write, close, print,
    add_event, set_files, written, report.
  cbn [files stdout stderr log].
  destruct (open_fault p) as [e|]; [done|].
  cbn [files stdout stderr log].
  rewrite lookup_insert_eq. cbn [default app].
  destruct (write_fault p png) as [[k e]|];
    cbn [files stdout stderr log fst snd];
    rewrite insert_insert_eq, <- !app_assoc; done.
Qed.

Lemma main_unfold_raise (argv : list string) (w : world) (e : exn) :
  create_png_data compress = Raise e →
  main compress open_fault write_fault argv w = (Raise e, w).
Proof.
  intros Hpng. unfold main. cbv zeta.
  unfold mbind at 1. unfold io_bind at 1. unfold call at 1.
  by rewrite Hpng.
Qed.

(** C6.  When the file can be opened and written, [main] opens the
    destination in mode [wb], writes the sequence [create_png_data]
    returned and nothing else, so the file holds exactly that sequence,
    and the line on standard output is [Generated <path> (<N> bytes)]
    with N the number of bytes of the file. *)
Theorem file_holds_image_and_size_reported
        (argv : list string) (w : world) (png : bytes) :
  create_png_data compress = Ok png →
  open_fault (destination argv) = None →
  write_fault (destination argv) png = None →
  ∃ w' content,
    main compress open_fault write_fault argv w = (Ok tt, w')
    ∧ files w' !! destination argv = Some content
    ∧ content = png
    ∧ (∀ q, q ≠ destination argv → files w' !! q = files w !! q)
    ∧ stdout w'
      = stdout w
        ++ ["Generated " +:+ destination argv +:+ " ("
            +:+ str (length content) +:+ " bytes)"]
    ∧ ∃ line,
        log w'
        = log w
          ++ [EvOpen (destination argv) "wb";
              EvWrite (destination argv) png;
              EvClose (destination argv); EvPrint line].
Proof.
  intros Hpng Hopen Hwrite. eexists _, _.
  rewrite (main_unfold _ _ _ Hpng). cbv zeta. rewrite Hopen, Hwrite.
  split; [reflexivity|]. cbn [written files stdout log].
  split; [apply lookup_insert_eq|]. split; [done|].
  split; [intros q Hq; by apply lookup_insert_ne|].
  split; [done|]. by eexists.
Qed.

(** C7.  Run without a path argument, [main] writes the file named
    [example.png]; run with a path it writes there; the bytes written
    are the same in both runs. *)
Theorem default_path_same_bytes
        (argv0 argv1 : list string) (w0 w1 : world) (p : string)
        (png : bytes) :
  create_png_data compress = Ok png →
  length argv0 ≤ 1 →
  argv1 !! 1 = Some p →
  open_fault "example.png" = None →
  write_fault "example.png" png = None →
  open_fault p = None →
  write_fault p png = None →
  files (snd (main compress open_fault write_fault argv0 w0))
    !! "example.png"%string = Some png
  ∧ files (snd (main compress open_fault write_fault argv1 w1)) !! p
    = Some png.
Proof.
  intros Hpng Hlen Harg Ho0 Hw0 Ho1 Hw1.
  rewrite !(main_unfold _ _ _ Hpng). cbv zeta.
  assert (destination argv0 = "example.png"%string) as ->.
  { destruct argv0 as [|a [|b l]]; [done|done|cbn in Hlen; lia]. }
  assert (destination argv1 = p) as ->.
  { unfold destination. by rewrite Harg. }
  rewrite Ho0, Hw0, Ho1, Hw1. cbn [snd written files].
  split; apply lookup_insert_eq.
Qed.


(** C9, as the script behaves.  After a run of [main] one of three things
    holds: the files and the standard output are what they were (the
    image could not be built or the file could not be opened); or the
    destination holds the whole sequence that [create_png_data] returned
    and no other file has changed; or the file was opened and the write
    then failed after [k] bytes, and the destination holds just those
    bytes of the sequence, its former content gone. *)
Theorem write_outcomes (argv : list string) (w : world) :
  let w' := snd (main compress open_fault write_fault argv w) in
  (files w' = files w ∧ stdout w' = stdout w)
  ∨ (∃ png, create_png_data compress = Ok png
            ∧ files w' = <[destination argv := png]> (files w))
  ∨ (∃ png k e,
       create_png_data compress = Ok png
       ∧ open_fault (destination argv) = None
       ∧ write_fault (destination argv) png = Some (k, e)
       ∧ files w' = <[destination argv := take k png]> (files w)
       ∧ stdout w' = stdout w).
Proof.
  intros w'. subst w'.
  destruct (create_png_data compress) as [png|e] eqn:Hpng.
  - rewrite (main_unfold _ _ _ Hpng). cbv zeta.
    destruct (open_fault (destination argv)) as [e|] eqn:Hopen.
    + left. split; reflexivity.
    + destruct (write_fault (destination argv) png) as [[k e]|] eqn:Hwrite.
      * right. right. exists png, k, e.
        split; [reflexivity|]. split; [reflexivity|].
        split; [exact Hwrite|]. split; reflexivity.
      * right. left. exists png. split; reflexivity.
  - rewrite (main_unfold_raise _ _ _ Hpng). left. split; reflexivity.
Qed.

(** The third case on its own. *)
Lemma failed_write_leaves_prefix
      (argv : list string) (w : world) (png : bytes) (k : nat)
      (e : os_error) :
  create_png_data compress = Ok png →
  open_fault (destination argv) = None →
  write_fault (destination argv) png = Some (k, e) →
  files (snd (main compress open_fault write_fault argv w))
    !! destination argv = Some (take k png).
Proof.
  intros Hpng Hopen Hwrite.
  rewrite (main_unfold _ _ _ Hpng). cbv zeta. rewrite Hopen, Hwrite.
  apply lookup_insert_eq.
Qed.

End RunFacts.

(** * Decompressing the image data *)

Section RoundTrip.

Variable compress : bytes → bytes.

(** The inverse of the compression routine. *)
Variable decompress : bytes → option bytes.
Hypothesis decompress_compress : ∀ d, decompress (compress d) = Some d.

(** C4.  Decompressing the payload of the IDAT chunk of the returned
    sequence gives the five bytes 00 00 00 00 00. *)
Theorem idat_decompresses :
  fits compress →
  ∃ out cs p,
    create_png_data compress = Ok out
    ∧ Png.read out = Some cs
    ∧ Png.payload_of "IDAT" cs = Some p
    ∧ decompress p = Some [x00; x00; x00; x00; x00].
Proof.
  intros Hfits. eexists _, _, _.
  split; [by apply create_png_data_Ok|].
  split; [by apply read_spec_file|].
  split; [reflexivity|]. apply decompress_compress.
Qed.

End RoundTrip.

(** * The script on concrete hosts *)

Example image_with_zlib_default :
  create_png_data Host.zlib_default
  = Ok [x89; x50; x4e; x47; x0d; x0a; x1a; x0a;
        x00; x00; x00; x0d; x49; x48; x44; x52;
        x00; x00; x00; x01; x00; x00; x00; x01; x08; x06; x00; x00; x00;
        x1f; x15; xc4; x89;
        x00; x00; x00; x0b; x49; x44; x41; x54;
        x78; x9c; x63; x60; x00; x02; x00; x00; x05; x00; x01;
        x7a; x5e; xab; x3f;
        x00; x00; x00; x00; x49; x45; x4e; x44; xae; x42; x60; x82].
Proof. vm_compute. reflexivity. Qed.

Example run_reports_size :
  let r := script Host.zlib_default Host.no_open_fault Host.no_write_fault
             ["generate_test_png.py"; "out.png"]%string Host.used in
  fst r = 0%Z
  ∧ stdout (snd r) = ["Generated out.png (68 bytes)"%string]
  ∧ length <$> files (snd r) !! "out.png"%string = Some 68%nat.
Proof. vm_compute. repeat split. Qed.

Example run_missing_directory :
  let r := script Host.zlib_default Host.missing_dir Host.no_write_fault
             ["generate_test_png.py"; "nodir/out.png"]%string Host.used in
  fst r = 1%Z
  ∧ stdout (snd r) = []
  ∧ stderr (snd r)
    = [Traceback (OSError FileNotFoundError "nodir/out.png")]
  ∧ log (snd r) = [EvOpen "nodir/out.png" "wb"]
  ∧ files (snd r) !! "nodir/out.png"%string = None
  ∧ files (snd r) !! "out.png"%string = Some [x01; x02; x03].
Proof. vm_compute. repeat split. Qed.

(** The write fails on a full disk: the old content of the file is gone
    and the image is not there. *)
Example run_disk_full :
  let r := script Host.zlib_default Host.no_open_fault Host.disk_full
             ["generate_test_png.py"; "out.png"]%string Host.used in
  fst r = 1%Z
  ∧ files Host.used !! "out.png"%string = Some [x01; x02; x03]
  ∧ files (snd r) !! "out.png"%string = Some [].
Proof. vm_compute. repeat split. Qed.

(** * Instances of the theorems *)

Lemma chunk_fields_agree_witness :
  fits Host.zlib_default
  ∧ ∃ out cs,
      create_png_data Host.zlib_default = Ok out
      ∧ Png.read out = Some cs
      ∧ Png.c_tag <$> cs
        = [Bytes.lit "IHDR"; Bytes.lit "IDAT"; Bytes.lit "IEND"]
      ∧ Png.c_payload <$> cs
        = [Png.header_1x1; Host.zlib_default Png.scanline; []]
      ∧ Forall Png.chunk_ok cs.
Proof.
  split; [vm_compute; reflexivity|].
  apply (chunk_fields_agree Host.zlib_default). vm_compute. reflexivity.
Defined.

Lemma signature_then_three_chunks_witness :
  fits Host.zlib_default
  ∧ ∃ out,
      create_png_data Host.zlib_default = Ok out
      ∧ out = [x89; x50; x4e; x47; x0d; x0a; x1a; x0a]
              ++ Png.spec_chunk "IHDR" Png.header_1x1
              ++ Png.spec_chunk "IDAT" (Host.zlib_default Png.scanline)
              ++ Png.spec_chunk "IEND" []
      ∧ take 8 out = [x89; x50; x4e; x47; x0d; x0a; x1a; x0a].
Proof.
  split; [vm_compute; reflexivity|].
  apply (signature_then_three_chunks Host.zlib_default).
  vm_compute. reflexivity.
Defined.

Lemma header_decodes_witness :
  fits Zlib.compress_stored
  ∧ ∃ out cs p,
      create_png_data Zlib.compress_stored = Ok out
      ∧ Png.read out = Some cs
      ∧ Png.payload_of "IHDR" cs = Some p
      ∧ length p = 13%nat
      ∧ Png.decode_header p = Some (Png.Header 1 1 8 6 0 0 0).
Proof.
  split; [vm_compute; reflexivity|].
  apply (header_decodes Zlib.compress_stored). vm_compute. reflexivity.
Defined.

Lemma idat_decompresses_witness :
  (∀ d, Zlib.decompress (Host.zlib_default d) = Some d)
  ∧ fits Host.zlib_default
  ∧ ∃ out cs p,
      create_png_data Host.zlib_default = Ok out
      ∧ Png.read out = Some cs
      ∧ Png.payload_of "IDAT" cs = Some p
      ∧ Zlib.decompress p = Some [x00; x00; x00; x00; x00].
Proof.
  split; [apply decompress_zlib_default|].
  split; [vm_compute; reflexivity|].
  apply (idat_decompresses Host.zlib_default Zlib.decompress
           decompress_zlib_default).
  vm_compute. reflexivity.
Defined.

Lemma total_length_witness :
  fits Host.zlib_default
  ∧ ∃ out ihdr idat iend,
      create_png_data Host.zlib_default = Ok out
      ∧ out = Png.signature ++ ihdr ++ idat ++ iend
      ∧ length out = (57 + 11)%nat
      ∧ length Png.signature = 8%nat
      ∧ ihdr = Png.spec_chunk "IHDR" Png.header_1x1
      ∧ length Png.header_1x1 = 13%nat
      ∧ length ihdr = 25%nat
      ∧ idat = Png.spec_chunk "IDAT" (Host.zlib_default Png.scanline)
      ∧ length idat = (12 + 11)%nat
      ∧ iend = [x00; x00; x00; x00; x49; x45; x4e; x44]
               ++ Bytes.be32 (Zlib.crc32 (Bytes.lit "IEND"))
      ∧ length iend = 12%nat.
Proof.
  split; [vm_compute; reflexivity|].
  apply (total_length Host.zlib_default). vm_compute. reflexivity.
Defined.

Lemma file_holds_image_and_size_reported_witness :
  let argv := ["generate_test_png.py"; "out.png"]%string in
  let png := Png.spec_file (Host.zlib_default Png.scanline) in
  create_png_data Host.zlib_default = Ok png
  ∧ Host.no_open_fault (destination argv) = None
  ∧ Host.no_write_fault (destination argv) png = None
  ∧ ∃ w' content,
      main Host.zlib_default Host.no_open_fault Host.no_write_fault argv
        Host.used = (Ok tt, w')
      ∧ files w' !! destination argv = Some content
      ∧ content = png
      ∧ (∀ q, q ≠ destination argv → files w' !! q = files Host.used !! q)
      ∧ stdout w'
        = stdout Host.used
          ++ ["Generated " +:+ destination argv +:+ " ("
              +:+ str (length content) +:+ " bytes)"]
      ∧ ∃ line,
          log w'
          = log Host.used
            ++ [EvOpen (destination argv) "wb";
                EvWrite (destination argv) png;
                EvClose (destination argv); EvPrint line].
Proof.
  intros argv png.
  split; [vm_compute; reflexivity|].
  split; [reflexivity|]. split; [reflexivity|].
  apply (file_holds_image_and_size_reported
           Host.zlib_default Host.no_open_fault Host.no_write_fault
           argv Host.used png);
    [vm_compute; reflexivity|reflexivity|reflexivity].
Defined.

Lemma default_path_same_bytes_witness :
  let argv0 := ["generate_test_png.py"]%string in
  let argv1 := ["generate_test_png.py"; "out.png"]%string in
  let png := Png.spec_file (Host.zlib_default Png.scanline) in
  files (snd (main Host.zlib_default Host.no_open_fault Host.no_write_fault
                argv0 Host.fresh)) !! "example.png"%string = Some png
  ∧ files (snd (main Host.zlib_default Host.no_open_fault
                  Host.no_write_fault argv1 Host.used)) !! "out.png"%string
    = Some png.
Proof.
  intros argv0 argv1 png.
  apply (default_path_same_bytes
           Host.zlib_default Host.no_open_fault Host.no_write_fault
           argv0 argv1 Host.fresh Host.used "out.png" png);
    [vm_compute; reflexivity | cbn; lia | reflexivity..].
Defined.


(** C9 as stated fails: on a full disk the file that was there is emptied
    by the open, the write fails, and the destination is neither what it
    was nor the image. *)
Lemma write_not_atomic :
  let argv := ["generate_test_png.py"; "out.png"]%string in
  let w' := snd (main Host.zlib_default Host.no_open_fault Host.disk_full
                   argv Host.used) in
  ¬ (files w' !! "out.png"%string = files Host.used !! "out.png"%string
     ∨ ∃ png, create_png_data Host.zlib_default = Ok png
              ∧ files w' !! "out.png"%string = Some png).
Proof.
  intros argv w'.
  assert (files w' !! "out.png"%string = Some []) as Hnow
    by (vm_compute; reflexivity).
  assert (files Host.used !! "out.png"%string = Some [x01; x02; x03])
    as Hwas by (vm_compute; reflexivity).
  assert (create_png_data Host.zlib_default
          = Ok (Png.spec_file (Host.zlib_default Png.scanline))) as Hpng
    by (vm_compute; reflexivity).
  rewrite Hnow, Hwas. intros [H|[png [Hpng' H]]].
  - discriminate H.
  - rewrite Hpng in Hpng'. injection Hpng' as <-. discriminate H.
Qed.


(** * Further properties of the script *)

Section MoreImageFacts.

Local Open Scope Z_scope.

Variable compress : bytes → bytes.

(** X1.  [create_png_data] returns exactly when the length of the
    compressed scanline fits the 32-bit length field of the IDAT chunk;
    otherwise packing that length raises [struct.error], and no other
    exception can come out of it. *)
Theorem create_png_data_returns_iff :
  (fits compress ↔ ∃ out, create_png_data compress = Ok out)
  ∧ (¬ fits compress ↔ create_png_data compress = Raise StructError).
Proof.
  destruct (Z.lt_ge_cases (Z.of_nat (length (compress Png.scanline)))
              (2 ^ 32)) as [Hfits|Hlong].
  - pose proof (create_png_data_Ok compress Hfits) as Hok.
    split; split.
    + intros _. by eexists.
    + done.
    + intros Hn. by destruct Hn.
    + rewrite Hok. discriminate.
  - assert (¬ fits compress) as Hn by (unfold fits; lia).
    pose proof (create_png_data_Raise compress Hn) as Hr.
    split; split.
    + intros Hf. by destruct Hn.
    + intros [out Hout]. rewrite Hr in Hout. discriminate.
    + done.
    + done.
Qed.

(** X9.  Whatever the compression routine, the returned sequence starts
    with the same 33 bytes, the signature and the IHDR chunk with the
    checksum 1F 15 C4 89, and ends with the same 12 bytes, the IEND
    chunk with the checksum AE 42 60 82. *)
Theorem fixed_head_and_tail :
  fits compress →
  ∃ out,
    create_png_data compress = Ok out
    ∧ take 33 out
      = [x89; x50; x4e; x47; x0d; x0a; x1a; x0a;
         x00; x00; x00; x0d; x49; x48; x44; x52;
         x00; x00; x00; x01; x00; x00; x00; x01; x08; x06; x00; x00; x00;
         x1f; x15; xc4; x89]
    ∧ drop (length out - 12) out
      = [x00; x00; x00; x00; x49; x45; x4e; x44; xae; x42; x60; x82].
Proof.
  intros Hfits. eexists. split; [by apply create_png_data_Ok|].
  unfold Png.spec_file.
  set (idat := Png.spec_chunk "IDAT" (compress Png.scanline)).
  split.
  - rewrite (app_assoc Png.signature).
    rewrite take_app_length' by reflexivity. vm_compute. reflexivity.
  - rewrite (app_assoc Png.signature), (app_assoc _ idat).
    rewrite drop_app_length'.
    + vm_compute. reflexivity.
    + rewrite (length_app _ (Png.spec_chunk "IEND" [])).
      change (length (Png.spec_chunk "IEND" [])) with 12%nat. lia.
Qed.

End MoreImageFacts.

Section MoreRunFacts.

Variable compress : bytes → bytes.
Variable open_fault : string → option os_error.
Variable write_fault : string → bytes → option (nat * os_error).

(** X2.  The image is built before the file is opened: when
    [create_png_data] raises, [main] raises the same [struct.error]
    without any call to the operating system, and the run ends with
    status 1 and that traceback, files, output and log as they were. *)
Theorem struct_error_before_any_io (argv : list string) (w : world) :
  ¬ fits compress →
  main compress open_fault write_fault argv w = (Raise StructError, w)
  ∧ script compress open_fault write_fault argv w
    = (1%Z,
       World (files w) (stdout w) (stderr w ++ [Traceback StructError])
         (log w)).
Proof.
  intros Hn. pose proof (create_png_data_Raise compress Hn) as Hr.
  unfold script. rewrite (main_unfold_raise _ _ _ _ _ _ Hr).
  split; reflexivity.
Qed.

(** X3.  In every run, whatever fails, [main] leaves all files other than
    the destination as they were, writes nothing to the error stream, and
    only adds to the standard output and to the calls made. *)
Theorem main_touches_only_destination
        (argv : list string) (w : world) (q : string) :
  q ≠ destination argv →
  let w' := snd (main compress open_fault write_fault argv w) in
  files w' !! q = files w !! q
  ∧ stderr w' = stderr w
  ∧ (∃ lines, stdout w' = stdout w ++ lines)
  ∧ (∃ calls, log w' = log w ++ calls).
Proof.
  intros Hq w'. subst w'.
  destruct (create_png_data compress) as [png|e] eqn:Hpng.
  - rewrite (main_unfold _ _ _ _ _ _ Hpng). cbv zeta.
    destruct (open_fault (destination argv)) as [e|].
    + cbn [snd files stdout stderr log].
      split; [reflexivity|]. split; [reflexivity|].
      split; [exists []; by rewrite app_nil_r|]. by eexists.
    + destruct (write_fault (destination argv) png) as [[k e]|];
        cbn [snd written files stdout stderr log].
      * split; [by apply lookup_insert_ne|]. split; [reflexivity|].
        split; [exists []; by rewrite app_nil_r|]. by eexists.
      * split; [by apply lookup_insert_ne|]. split; [reflexivity|].
        split; by eexists.
  - rewrite (main_unfold_raise _ _ _ _ _ _ Hpng). cbn [snd].
    split; [reflexivity|]. split; [reflexivity|].
    split; exists []; by rewrite app_nil_r.
Qed.

(** X4.  The write is not atomic: when the file was opened and the write
    then fails after [k] bytes, the run ends with status 1 and the
    destination holds just those [k] bytes of the image, whatever it held
    before; with [k] short of the whole, it does not hold the image. *)
Theorem failed_write_loses_old_content
        (argv : list string) (w : world) (png : bytes) (k : nat)
        (e : os_error) :
  create_png_data compress = Ok png →
  open_fault (destination argv) = None →
  write_fault (destination argv) png = Some (k, e) →
  let r := script compress open_fault write_fault argv w in
  fst r = 1%Z
  ∧ files (snd r) !! destination argv = Some (take k png)
  ∧ (k < length png → files (snd r) !! destination argv ≠ Some png).
Proof.
  intros Hpng Hopen Hwrite r. subst r. unfold script.
  rewrite (main_unfold _ _ _ _ _ _ Hpng). cbv zeta. rewrite Hopen, Hwrite.
  cbn [fst snd files]. split; [reflexivity|].
  rewrite lookup_insert_eq. split; [reflexivity|].
  intros Hk Heq. injection Heq as Heq.
  apply (f_equal length) in Heq. rewrite length_take in Heq. lia.
Qed.

(** X5.  [main] returns normally only when neither the open nor the write
    failed, and then the world is the one with the whole image at the
    destination and the confirmation line printed. *)
Theorem normal_return_means_written
        (argv : list string) (w w' : world) :
  main compress open_fault write_fault argv w = (Ok tt, w') →
  ∃ png,
    create_png_data compress = Ok png
    ∧ open_fault (destination argv) = None
    ∧ write_fault (destination argv) png = None
    ∧ w' = written (destination argv) png w.
Proof.
  intros Hmain.
  destruct (create_png_data compress) as [png|e] eqn:Hpng.
  - rewrite (main_unfold _ _ _ _ _ _ Hpng) in Hmain. cbv zeta in Hmain.
    exists png. split; [reflexivity|].
    destruct (open_fault (destination argv)) as [e|].
    { apply (f_equal fst) in Hmain. discriminate Hmain. }
    destruct (write_fault (destination argv) png) as [[k e]|].
    { apply (f_equal fst) in Hmain. discriminate Hmain. }
    apply (f_equal snd) in Hmain. cbn [snd] in Hmain. subst w'.
    split; [reflexivity|]. split; reflexivity.
  - rewrite (main_unfold_raise _ _ _ _ _ _ Hpng) in Hmain.
    apply (f_equal fst) in Hmain. discriminate Hmain.
Qed.

(** X7.  Running [main] again with the same arguments changes no file:
    the second run writes the same bytes over the first; only a second
    confirmation line, equal to the first, is added. *)
Theorem rerun_changes_no_file
        (argv : list string) (w : world) (png : bytes) :
  create_png_data compress = Ok png →
  open_fault (destination argv) = None →
  write_fault (destination argv) png = None →
  let w1 := snd (main compress open_fault write_fault argv w) in
  let w2 := snd (main compress open_fault write_fault argv w1) in
  files w2 = files w1
  ∧ stdout w2
    = stdout w ++ [report (destination argv) (length png);
                   report (destination argv) (length png)].
Proof.
  intros Hpng Hopen Hwrite w1 w2. subst w1 w2.
  rewrite !(main_unfold _ _ _ _ _ _ Hpng). cbv zeta.
  rewrite Hopen, Hwrite. cbn [snd written files stdout].
  split; [apply insert_insert_eq|]. by rewrite <- app_assoc.
Qed.

(** X8.  Of the command line only the element at index 1 matters: two
    command lines that agree there (or both lack it) give the same run,
    so the program name and any further arguments are ignored. *)
Theorem only_first_argument_matters
        (argv argv' : list string) (w : world) :
  argv !! 1 = argv' !! 1 →
  main compress open_fault write_fault argv w
  = main compress open_fault write_fault argv' w
  ∧ script compress open_fault write_fault argv w
    = script compress open_fault write_fault argv' w.
Proof.
  intros Harg.
  assert (main compress open_fault write_fault argv w
          = main compress open_fault write_fault argv' w) as Hmain.
  { unfold main. rewrite !output_file_destination.
    unfold destination. by rewrite Harg. }
  split; [exact Hmain|]. unfold script. by rewrite Hmain.
Qed.

End MoreRunFacts.

Section ReportFacts.

Variable compress : bytes → bytes.
Variable open_fault : string → option os_error.
Variable write_fault : string → bytes → option (nat * os_error).

Lemma length_spec_file (idat : bytes) :
  length (Png.spec_file idat) = 57 + length idat.
Proof.
  unfold Png.spec_file. rewrite !length_app, !length_spec_chunk. cbn. lia.
Qed.

(** X10.  On a run without failure the one line added to the standard
    output is [Generated <path> (<N> bytes)] with N equal to 57 plus the
    number of bytes the compression routine returned for the scanline. *)
Theorem report_counts_compressed_length (argv : list string) (w : world) :
  fits compress →
  open_fault (destination argv) = None →
  (∀ data, write_fault (destination argv) data = None) →
  stdout (snd (main compress open_fault write_fault argv w))
  = stdout w
    ++ ["Generated " +:+ destination argv +:+ " ("
        +:+ str (57 + length (compress Png.scanline)) +:+ " bytes)"].
Proof.
  intros Hfits Hopen Hwrite.
  rewrite (main_unfold _ _ _ _ _ _ (create_png_data_Ok compress Hfits)).
  cbv zeta. rewrite Hopen, Hwrite. cbn [snd written stdout].
  unfold report. by rewrite length_spec_file.
Qed.

End ReportFacts.

(** * Instances of the further properties *)

Lemma huge_does_not_fit : ¬ fits Host.huge.
Proof.
  unfold fits, Host.huge. rewrite length_replicate, Z2Nat.id by lia. lia.
Qed.

Lemma fixed_head_and_tail_witness :
  fits Zlib.compress_stored
  ∧ ∃ out,
      create_png_data Zlib.compress_stored = Ok out
      ∧ take 33 out
        = [x89; x50; x4e; x47; x0d; x0a; x1a; x0a;
           x00; x00; x00; x0d; x49; x48; x44; x52;
           x00; x00; x00; x01; x00; x00; x00; x01; x08; x06; x00; x00; x00;
           x1f; x15; xc4; x89]
      ∧ drop (length out - 12) out
        = [x00; x00; x00; x00; x49; x45; x4e; x44; xae; x42; x60; x82].
Proof.
  split; [vm_compute; reflexivity|].
  apply (fixed_head_and_tail Zlib.compress_stored). vm_compute. reflexivity.
Defined.

Lemma struct_error_before_any_io_witness :
  let argv := ["generate_test_png.py"; "out.png"]%string in
  ¬ fits Host.huge
  ∧ main Host.huge Host.no_open_fault Host.no_write_fault argv Host.used
    = (Raise StructError, Host.used)
  ∧ script Host.huge Host.no_open_fault Host.no_write_fault argv Host.used
    = (1%Z,
       World (files Host.used) (stdout Host.used)
         (stderr Host.used ++ [Traceback StructError]) (log Host.used)).
Proof.
  intros argv. split; [exact huge_does_not_fit|].
  apply (struct_error_before_any_io
           Host.huge Host.no_open_fault Host.no_write_fault argv Host.used).
  exact huge_does_not_fit.
Defined.

Lemma main_touches_only_destination_witness :
  let argv := ["generate_test_png.py"]%string in
  let w' := snd (main Host.zlib_default Host.no_open_fault
                   Host.no_write_fault argv Host.used) in
  "out.png"%string ≠ destination argv
  ∧ files w' !! "out.png"%string = files Host.used !! "out.png"%string
  ∧ stderr w' = stderr Host.used
  ∧ (∃ lines, stdout w' = stdout Host.used ++ lines)
  ∧ (∃ calls, log w' = log Host.used ++ calls).
Proof.
  intros argv w'. split; [discriminate|].
  apply (main_touches_only_destination
           Host.zlib_default Host.no_open_fault Host.no_write_fault
           argv Host.used "out.png").
  discriminate.
Defined.

Lemma failed_write_loses_old_content_witness :
  let argv := ["generate_test_png.py"; "out.png"]%string in
  let png := Png.spec_file (Host.zlib_default Png.scanline) in
  let r := script Host.zlib_default Host.no_open_fault Host.disk_full argv
             Host.used in
  create_png_data Host.zlib_default = Ok png
  ∧ Host.no_open_fault (destination argv) = None
  ∧ Host.disk_full (destination argv) png = Some (O, OtherOSError 28)
  ∧ fst r = 1%Z
  ∧ files (snd r) !! destination argv = Some (take 0 png)
  ∧ (0 < length png → files (snd r) !! destination argv ≠ Some png).
Proof.
  intros argv png r.
  split; [vm_compute; reflexivity|].
  split; [reflexivity|]. split; [reflexivity|].
  apply (failed_write_loses_old_content
           Host.zlib_default Host.no_open_fault Host.disk_full
           argv Host.used png O (OtherOSError 28));
    [vm_compute; reflexivity|reflexivity|reflexivity].
Defined.

Lemma normal_return_means_written_witness :
  let argv := ["generate_test_png.py"; "out.png"]%string in
  let w' := snd (main Host.zlib_default Host.no_open_fault
                   Host.no_write_fault argv Host.used) in
  main Host.zlib_default Host.no_open_fault Host.no_write_fault argv
    Host.used = (Ok tt, w')
  ∧ ∃ png,
      create_png_data Host.zlib_default = Ok png
      ∧ Host.no_open_fault (destination argv) = None
      ∧ Host.no_write_fault (destination argv) png = None
      ∧ w' = written (destination argv) png Host.used.
Proof.
  intros argv w'.
  assert (main Host.zlib_default Host.no_open_fault Host.no_write_fault
            argv Host.used = (Ok tt, w')) as Hmain
    by (vm_compute; reflexivity).
  split; [exact Hmain|].
  exact (normal_return_means_written
           Host.zlib_default Host.no_open_fault Host.no_write_fault
           argv Host.used w' Hmain).
Defined.

Lemma rerun_changes_no_file_witness :
  let argv := ["generate_test_png.py"; "out.png"]%string in
  let png := Png.spec_file (Host.zlib_default Png.scanline) in
  let w1 := snd (main Host.zlib_default Host.no_open_fault
                   Host.no_write_fault argv Host.used) in
  let w2 := snd (main Host.zlib_default Host.no_open_fault
                   Host.no_write_fault argv w1) in
  files w2 = files w1
  ∧ stdout w2
    = stdout Host.used
      ++ [report (destination argv) (length png);
          report (destination argv) (length png)].
Proof.
  intros argv png.
  apply (rerun_changes_no_file
           Host.zlib_default Host.no_open_fault Host.no_write_fault
           argv Host.used png);
    [vm_compute; reflexivity|reflexivity|reflexivity].
Defined.

Lemma only_first_argument_matters_witness :
  let argv := ["generate_test_png.py"; "out.png"; "more"; "-v"]%string in
  let argv' := ["gen"; "out.png"]%string in
  argv !! 1%nat = argv' !! 1%nat
  ∧ main Host.zlib_default Host.missing_dir Host.disk_full argv Host.used
    = main Host.zlib_default Host.missing_dir Host.disk_full argv' Host.used
  ∧ script Host.zlib_default Host.missing_dir Host.disk_full argv Host.used
    = script Host.zlib_default Host.missing_dir Host.disk_full argv'
        Host.used.
Proof.
  intros argv argv'. split; [reflexivity|].
  apply (only_first_argument_matters
           Host.zlib_default Host.missing_dir Host.disk_full
           argv argv' Host.used).
  reflexivity.
Defined.

Lemma report_counts_compressed_length_witness :
  let argv := ["generate_test_png.py"; "out.png"]%string in
  fits Host.zlib_default
  ∧ Host.no_open_fault (destination argv) = None
  ∧ (∀ data, Host.no_write_fault (destination argv) data = None)
  ∧ stdout (snd (main Host.zlib_default Host.no_open_fault
                   Host.no_write_fault argv Host.used))
    = stdout Host.used
      ++ ["Generated " +:+ destination argv +:+ " ("
          +:+ str (57 + length (Host.zlib_default Png.scanline))
          +:+ " bytes)"].
Proof.
  intros argv. split; [vm_compute; reflexivity|].
  split; [reflexivity|]. split; [intros data; reflexivity|].
  apply (report_counts_compressed_length
           Host.zlib_default Host.no_open_fault Host.no_write_fault
           argv Host.used);
    [vm_compute; reflexivity | reflexivity | intros data; reflexivity].
Defined.
